(** * AG-UI LangGraph research agent: the event-streaming endpoint

    A shallow embedding of [src/agui/main.py] (the asynchronous generator
    [event_generator] behind the POST route) and of
    [src/agui/langgraph/research.py] (the workflow node [research_node]),
    followed by the properties of the protocol layer: event order, message
    bracketing, sink draining, a producer beside the drain, and failure
    behaviour. *)

From Stdlib Require Import String List Lia.
From stdpp Require Import base list strings.
Import ListNotations.

Local Open Scope string_scope.
Local Open Scope list_scope.

(** ** Data model *)

(** Python reads the text of a message through the attribute [content], on
    the AG-UI request messages as well as on the LangChain messages. *)
Class Content (A : Type) := content : A -> string.

(** [ag_ui.core.Message]: the fields the endpoint reads. *)
Record Message := mkMessage {
  role : string;
  message_content : string
}.

#[global] Instance Message_content : Content Message := message_content.

(** [ag_ui.core.RunAgentInput]: the fields the endpoint reads. *)
Record RunAgentInput := mkRunAgentInput {
  thread_id : string;
  run_id : string;
  messages : list Message
}.

(** [langchain_core.messages]: the two message classes the sources build. *)
Inductive BaseMessage :=
| HumanMessage (text : string)
| AIMessage (text : string).

#[global] Instance BaseMessage_content : Content BaseMessage :=
  fun m => match m with HumanMessage c => c | AIMessage c => c end.

(** The exceptions that can leave the generator: the [IndexError] of a list
    subscript out of range, the [ValidationError] of an event model that
    rejects its fields, and whatever a workflow step raises. *)
Inductive exn :=
| IndexError
| ValidationError
| WorkflowError (what : string).

(** Modelled from the spec: the fields of [ResearchState] (state.py is not
    among the sources).  The constructor call in main.py gives [message_id]
    and [query]; the spec's RunState adds the progress flag, which a fresh
    state has not set. *)
Record ResearchState := mkResearchState {
  message_id : string;
  query : string;
  in_progress : bool
}.

(** The protocol events, one constructor per event class that main.py
    instantiates, and the snapshot event of the state object. *)
Inductive ProtocolEvent :=
| RunStartedEvent (thread run : string)
| RunFinishedEvent (thread run : string)
| TextMessageStartEvent (mid role : string)
| TextMessageContentEvent (mid delta : string)
| TextMessageEndEvent (mid : string)
| StateSnapshotEvent (snapshot : ResearchState).

(** Event kinds, as decidable predicates. *)
Definition is_run_started (e : ProtocolEvent) : bool :=
  match e with RunStartedEvent _ _ => true | _ => false end.
Definition is_run_finished (e : ProtocolEvent) : bool :=
  match e with RunFinishedEvent _ _ => true | _ => false end.
Definition is_text_start (e : ProtocolEvent) : bool :=
  match e with TextMessageStartEvent _ _ => true | _ => false end.
Definition is_text_content (e : ProtocolEvent) : bool :=
  match e with TextMessageContentEvent _ _ => true | _ => false end.
Definition is_text_end (e : ProtocolEvent) : bool :=
  match e with TextMessageEndEvent _ => true | _ => false end.
Definition is_snapshot (e : ProtocolEvent) : bool :=
  match e with StateSnapshotEvent _ => true | _ => false end.

(** Number of events of a kind in a stream. *)
Definition count_kind (p : ProtocolEvent -> bool) (evs : list ProtocolEvent) : nat :=
  List.length (List.filter p evs).

(** The two methods of the state object that a workflow step may call. *)
Inductive StateOp :=
| set_in_progress (flag : bool)
| emit_snapshot.

(** ** The workflow side: research.py *)

Module Workflow.
Section WithState.

(** [H] is the type of references to a [ResearchState] object; the
    parameter [state: Optional[ResearchState]] is an [option H]. *)
Context {H : Type}.

(** A workflow step runs to completion inside one call.  What the caller
    can observe of it is the sequence of method calls it made on state
    objects, in order, and then either its return value or the exception
    it raised. *)
Definition Wf (A : Type) : Type := list (H * StateOp) * (exn + A).

Definition ret {A} (a : A) : Wf A := ([], inr a).
Definition raise {A} (e : exn) : Wf A := ([], inl e).
Definition call (s : H) (op : StateOp) : Wf unit := ([(s, op)], inr tt).

Definition bind {A B} (m : Wf A) (k : A -> Wf B) : Wf B :=
  match m with
  | (log, inl e) => (log, inl e)
  | (log, inr a) => let '(log', r) := k a in (log ++ log', r)
  end.

(** [l[-1]]: the last element, [IndexError] on the empty list. *)
Definition index_last {A} (l : list A) : Wf A :=
  match last l with
  | Some a => ret a
  | None => raise IndexError
  end.

(** The calls made, and the outcome. *)
Definition calls {A} (m : Wf A) : list (H * StateOp) := fst m.
Definition outcome {A} (m : Wf A) : exn + A := snd m.

(** The two helpers of the node live in web_search.py and report.py,
    which are not among the sources: they are parameters.  Each receives
    the optional state and may call its methods or raise. *)
Context {SearchResults : Type}.
Variable web_search : string -> option H -> Wf SearchResults.
Variable create_detailed_report : SearchResults -> option H -> Wf string.

Local Notation "x <- m ;; k" := (bind m (fun x => k))
  (at level 100, m at next level, right associativity).
Local Notation "m ;; k" := (bind m (fun _ => k))
  (at level 100, right associativity).

(** research.py, [research_node]. *)
Definition research_node (messages : list BaseMessage) (state : option H)
  : Wf (list BaseMessage) :=
  (* Step 1 *)
  last <- index_last messages ;;
  let query := content last in
  (* Step 2 *)
  (match state with
   | Some s => call s (set_in_progress true)
   | None => ret tt
   end) ;;
  (* Step 3 *)
  search_results <- web_search query state ;;
  (* Step 4 *)
  report <- create_detailed_report search_results state ;;
  (* Step 5 *)
  ret [AIMessage report].

End WithState.
Arguments Wf : clear implicits.
End Workflow.

(** ** The orchestrator side: main.py *)

Module Orchestrator.
Import Workflow.
Section WithEncoder.

(** [EventEncoder.encode] belongs to the ag_ui package: a parameter, from
    protocol events to wire chunks. *)
Context {Chunk : Type}.
Variable encode : ProtocolEvent -> Chunk.

(** The mutable objects of one call of [event_generator]: the chunks handed
    to the client so far, the list [emitted_events] that the closure
    [event_emitter] shares with the generator, and the [research_state]
    object once it has been created. *)
Record Heap := mkHeap {
  yielded : list Chunk;
  emitted_events : list Chunk;
  research_state : option ResearchState
}.

Definition empty_heap : Heap := mkHeap [] [] None.

(** An asynchronous generator body: it updates the heap, and either runs on
    or stops on an exception, keeping what it has yielded. *)
Definition Gen (A : Type) : Type := Heap -> Heap * (exn + A).

Definition gret {A} (a : A) : Gen A := fun h => (h, inr a).
Definition graise {A} (e : exn) : Gen A := fun h => (h, inl e).

Definition gbind {A B} (m : Gen A) (k : A -> Gen B) : Gen B :=
  fun h =>
    match m h with
    | (h', inl e) => (h', inl e)
    | (h', inr a) => k a h'
    end.

Local Notation "x <- m ;; k" := (gbind m (fun x => k))
  (at level 100, m at next level, right associativity).
Local Notation "m ;; k" := (gbind m (fun _ => k))
  (at level 100, right associativity).

(** [yield chunk] *)
Definition yield (c : Chunk) : Gen unit :=
  fun h => (mkHeap (yielded h ++ [c]) (emitted_events h) (research_state h), inr tt).

(** [emitted_events = []] *)
Definition new_emitted_events : Gen unit :=
  fun h => (mkHeap (yielded h) [] (research_state h), inr tt).

(** The closure [event_emitter]: [emitted_events.append(encoded_event)]. *)
Definition event_emitter (encoded_event : Chunk) : Gen unit :=
  fun h => (mkHeap (yielded h) (emitted_events h ++ [encoded_event]) (research_state h), inr tt).

(** [emitted_events.clear()] *)
Definition clear_emitted_events : Gen unit :=
  fun h => (mkHeap (yielded h) [] (research_state h), inr tt).

(** [for event in events: yield event] *)
Fixpoint yield_each (events : list Chunk) : Gen unit :=
  match events with
  | [] => gret tt
  | event :: rest => yield event ;; yield_each rest
  end.

(** The two statements main.py repeats after each producer of events:
    [for event in emitted_events: yield event] and then
    [emitted_events.clear()]. *)
Definition drain : Gen unit :=
  fun h => (yield_each (emitted_events h) ;; clear_emitted_events) h.

(** [l[i]] for a non-negative [i]: [IndexError] out of range. *)
Definition index {A} (l : list A) (i : nat) : Gen A :=
  match l !! i with
  | Some a => gret a
  | None => graise IndexError
  end.

(** [l[-1]] *)
Definition index_last {A} (l : list A) : Gen A :=
  match last l with
  | Some a => gret a
  | None => graise IndexError
  end.

(** [TextMessageContentEvent(type=..., message_id=..., delta=...)]: the
    event classes of ag_ui.core are validated models, and this one rejects
    an empty [delta] when it is built.  The other event classes that
    main.py builds put no condition on their string fields. *)
Definition text_message_content_event (message_id delta : string)
  : Gen ProtocolEvent :=
  match delta with
  | "" => graise ValidationError
  | _ => gret (TextMessageContentEvent message_id delta)
  end.

(** Modelled from the spec: the constructor of [ResearchState] (state.py is
    not among the sources): it stores the identity and the query, with the
    progress flag not set, and keeps [event_emitter] as its sink. *)
Definition new_research_state (message_id query : string) : Gen unit :=
  fun h => (mkHeap (yielded h) (emitted_events h)
                   (Some (mkResearchState message_id query false)), inr tt).

(** Modelled from the spec: the methods of [ResearchState] (state.py is not
    among the sources).  [set_in_progress] is a pure mutation of the flag
    with no protocol effect; [emit_snapshot] encodes the current state as a
    snapshot event and appends that one chunk to the sink. *)
Definition method (op : StateOp) : Gen unit :=
  fun h =>
    match research_state h with
    | None => (h, inl (WorkflowError "research_state is not defined"))
    | Some st =>
        match op with
        | set_in_progress flag =>
            (mkHeap (yielded h) (emitted_events h)
                    (Some (mkResearchState (message_id st) (query st) flag)), inr tt)
        | emit_snapshot => event_emitter (encode (StateSnapshotEvent st)) h
        end
    end.

(** The calls a workflow step made happen on the heap in the order made. *)
Fixpoint perform (log : list (unit * StateOp)) : Gen unit :=
  match log with
  | [] => gret tt
  | (_, op) :: rest => method op ;; perform rest
  end.

(** A workflow step seen from the generator: its calls, then its return
    value or its exception. *)
Definition run_workflow {A} (m : Wf unit A) : Gen A :=
  perform (calls m) ;;
  match outcome m with
  | inl e => graise e
  | inr a => gret a
  end.

Context {SearchResults : Type}.
Variable web_search : string -> option unit -> Wf unit SearchResults.
Variable create_detailed_report : SearchResults -> option unit -> Wf unit string.

(** Modelled from the spec: [build_research_graph] (agent.py is not among
    the sources).  The workflow is one blocking entry point with the run
    state bound: invoking the graph runs [research_node] on the messages
    with that state and returns what the node returns. *)
Definition build_research_graph (state : unit)
  : list BaseMessage -> Wf unit (list BaseMessage) :=
  fun messages =>
    research_node web_search create_detailed_report messages (Some state).

(** [graph.invoke(messages)] *)
Definition invoke (graph : list BaseMessage -> Wf unit (list BaseMessage))
  (messages : list BaseMessage) : Gen (list BaseMessage) :=
  run_workflow (graph messages).

(** main.py, [event_generator].  [uuid4] is the identifier that
    [uuid.uuid4()] draws for this call; the one state object of the call is
    referred to by [tt]; the debugging prints have no effect on the stream
    and are left out. *)
Definition event_generator (input_data : RunAgentInput) (uuid4 : string) : Gen unit :=
  last_message <- index_last (messages input_data) ;;
  let query := content last_message in
  let message_id := uuid4 in
  yield (encode (RunStartedEvent (thread_id input_data) (run_id input_data))) ;;
  new_emitted_events ;;
  new_research_state message_id query ;;
  method emit_snapshot ;;
  drain ;;
  let graph := build_research_graph tt in
  result <- invoke graph [HumanMessage query] ;;
  drain ;;
  report_item <- index result 0 ;;
  let report_content := content report_item in
  yield (encode (TextMessageStartEvent message_id "assistant")) ;;
  content_event <- text_message_content_event message_id report_content ;;
  yield (encode content_event) ;;
  yield (encode (TextMessageEndEvent message_id)) ;;
  yield (encode (RunFinishedEvent (thread_id input_data) (run_id input_data))).

(** What the client of the streaming response receives from one call: the
    chunks in the order yielded, and how the generator ended. *)
Definition stream (g : Gen unit) : list Chunk * (exn + unit) :=
  let '(h, r) := g empty_heap in (yielded h, r).

End WithEncoder.
End Orchestrator.

(** ** Reading a run at the level of events *)

(** The snapshot events that a sequence of method calls appends to the
    sink, in the order appended, starting from the state [st]. *)
Fixpoint snapshots (log : list (unit * StateOp)) (st : ResearchState)
  : list ProtocolEvent :=
  match log with
  | [] => []
  | (_, set_in_progress flag) :: rest =>
      snapshots rest (mkResearchState (message_id st) (query st) flag)
  | (_, emit_snapshot) :: rest => StateSnapshotEvent st :: snapshots rest st
  end.

(** The state object after the same calls. *)
Fixpoint final_state (log : list (unit * StateOp)) (st : ResearchState)
  : ResearchState :=
  match log with
  | [] => st
  | (_, set_in_progress flag) :: rest =>
      final_state rest (mkResearchState (message_id st) (query st) flag)
  | (_, emit_snapshot) :: rest => final_state rest st
  end.

(** The identifier a text-message event carries. *)
Definition text_message_id (e : ProtocolEvent) : option string :=
  match e with
  | TextMessageStartEvent mid _ => Some mid
  | TextMessageContentEvent mid _ => Some mid
  | TextMessageEndEvent mid => Some mid
  | _ => None
  end.

(** The events a completed run is expected to send: the run start, the
    events buffered in the sink, the text message and the run end. *)
Definition run_events (input_data : RunAgentInput) (mid : string)
  (buffered : list ProtocolEvent) (text : string) : list ProtocolEvent :=
  [RunStartedEvent (thread_id input_data) (run_id input_data)]
  ++ buffered
  ++ [TextMessageStartEvent mid "assistant";
      TextMessageContentEvent mid text;
      TextMessageEndEvent mid;
      RunFinishedEvent (thread_id input_data) (run_id input_data)].

(** ** Concrete collaborators, for running the model *)

Module Sample.
Import Workflow.

(** The identity framing: a chunk is the event itself. *)
Definition plain (e : ProtocolEvent) : ProtocolEvent := e.

(** A search that touches no state and returns the query as its only hit. *)
Definition quiet_search {H} (query : string) (_ : option H) : Wf H (list string) :=
  ret [query].

(** A search that reports progress through the state when it has one. *)
Definition noisy_search {H} (query : string) (state : option H) : Wf H (list string) :=
  match state with
  | Some s => bind (call s emit_snapshot) (fun _ => ret [query])
  | None => ret [query]
  end.

(** A search that fails. *)
Definition failing_search {H} (_ : string) (_ : option H) : Wf H (list string) :=
  raise (WorkflowError "search backend unreachable").

(** A report writer that touches no state and returns a fixed text. *)
Definition fixed_report {H} (text : string) (_ : list string) (_ : option H)
  : Wf H string :=
  ret text.

(** Probes, to see which query the node searches for: a search that
    raises the query it was given; and a search that hands the query back
    as its result, with a report writer that puts a title before what it
    was given. *)
Definition probe_search {H A} (query : string) (_ : option H) : Wf H A :=
  raise (WorkflowError query).
Definition echo_search {H} (query : string) (_ : option H) : Wf H string :=
  ret query.
Definition titled_report {H} (results : string) (_ : option H) : Wf H string :=
  ret (String.append "Report on: " results).

Definition climate_text : string := "Climate change causes rising sea levels...".

Definition climate_input : RunAgentInput :=
  mkRunAgentInput "thread-1" "run-1" [mkMessage "user" "climate change impacts"].

Definition two_turn_input : RunAgentInput :=
  mkRunAgentInput "thread-2" "run-7"
    [mkMessage "user" "solar power"; mkMessage "assistant" "Which aspect?";
     mkMessage "user" "solar power costs"].

End Sample.

(** ** Measures on runs *)

(** [event_emitter] called on each chunk of a list, in order: what a
    producer does that emits several events before the next drain. *)
Fixpoint emit_each {Chunk : Type} (chunks : list Chunk)
  : Orchestrator.Gen (Chunk:=Chunk) unit :=
  match chunks with
  | [] => Orchestrator.gret tt
  | c :: rest =>
      Orchestrator.gbind (Orchestrator.event_emitter c) (fun _ => emit_each rest)
  end.

(** Number of [emit_snapshot] calls among the method calls of a step. *)
Definition count_emits {H : Type} (log : list (H * StateOp)) : nat :=
  List.length
    (List.filter (fun c => match snd c with emit_snapshot => true | _ => false end)
       log).

(** ** The drain, step by step *)

Module Interleaving.
Import Orchestrator.
Section WithChunks.
Context {Chunk : Type}.

(** Where a drain stands: in the loop [for event in emitted_events], about
    to look at position [i] of the list; past the loop and before
    [emitted_events.clear()]; or finished. *)
Inductive DrainPoint :=
| in_loop (i : nat)
| before_clear
| drained.

(** One step of the drain.  The loop reads the list as it is at that
    moment: it yields the element at its position when there is one, and
    leaves the loop when there is none. *)
Definition drain_step (point : DrainPoint) (h : Heap (Chunk:=Chunk))
  : DrainPoint * Heap :=
  match point with
  | in_loop i =>
      match emitted_events h !! i with
      | Some event => (in_loop (S i), fst (yield event h))
      | None => (before_clear, h)
      end
  | before_clear => (drained, fst (clear_emitted_events h))
  | drained => (drained, h)
  end.

(** What happens next when a producer runs beside the drain: the drain
    takes a step, or the producer calls [event_emitter]. *)
Inductive Tick :=
| drain_tick
| append_tick (c : Chunk).

Fixpoint interleave (ticks : list Tick) (point : DrainPoint) (h : Heap)
  : DrainPoint * Heap :=
  match ticks with
  | [] => (point, h)
  | drain_tick :: rest =>
      let '(point', h') := drain_step point h in interleave rest point' h'
  | append_tick c :: rest => interleave rest point (fst (event_emitter c h))
  end.






End WithChunks.
End Interleaving.

(** * Properties *)

(** ** The workflow node *)

Section NodeFacts.
Import Workflow.
Context {H SearchResults : Type}.
Variable web_search : string -> option H -> Wf H SearchResults.
Variable create_detailed_report : SearchResults -> option H -> Wf H string.

(** On an empty message list the node stops at its first statement. *)
Lemma research_node_empty (state : option H) :
  research_node web_search create_detailed_report [] state = ([], inl IndexError).
Proof. reflexivity. Qed.

(** What the node does on a non-empty list, spelled out by the outcome of
    its two helpers. *)
Lemma research_node_unfold (messages : list BaseMessage) (m : BaseMessage)
  (state : option H) :
  last messages = Some m ->
  research_node web_search create_detailed_report messages state =
  let guard := match state with
               | Some s => [(s, set_in_progress true)]
               | None => []
               end in
  match web_search (content m) state with
  | (l1, inl e) => (guard ++ l1, inl e)
  | (l1, inr results) =>
      match create_detailed_report results state with
      | (l2, inl e) => (guard ++ l1 ++ l2, inl e)
      | (l2, inr report) => (guard ++ l1 ++ l2, inr [AIMessage report])
      end
  end.
Proof.
  intros Hlast. unfold research_node, index_last. rewrite Hlast.
  destruct state as [s|]; simpl;
    destruct (web_search (content m) _) as [l1 [e|results]]; simpl; try reflexivity;
    destruct (create_detailed_report results _) as [l2 [e|report]]; simpl;
    rewrite ?app_nil_r; reflexivity.
Qed.

(** Whenever the node returns, it returns one AI message. *)
Lemma research_node_returns_singleton (messages : list BaseMessage)
  (state : option H) (log : list (H * StateOp)) (result : list BaseMessage) :
  research_node web_search create_detailed_report messages state = (log, inr result) ->
  exists report, result = [AIMessage report].
Proof.
  destruct (last messages) as [m|] eqn:Hlast.
  - rewrite (research_node_unfold _ m _ Hlast). cbv zeta.
    destruct (web_search _ _) as [l1 [e|results]]; [discriminate|].
    destruct (create_detailed_report _ _) as [l2 [e|report]]; [discriminate|].
    intros [= _ <-]. by exists report.
  - apply last_None in Hlast as ->. rewrite research_node_empty. discriminate.
Qed.

End NodeFacts.

(** ** The sink and the generator *)

Section RunFacts.
Import Workflow Orchestrator.
Context {Chunk : Type}.
Variable encode : ProtocolEvent -> Chunk.

(** The loop hands over the listed chunks in order and touches nothing
    else. *)
Lemma yield_each_spec (events : list Chunk) (h : Heap) :
  yield_each events h =
  (mkHeap (yielded h ++ events) (emitted_events h) (research_state h), inr tt).
Proof.
  revert h; induction events as [|c cs IH]; intros h; simpl.
  - unfold gret. rewrite app_nil_r. by destruct h.
  - unfold gbind, yield. rewrite IH. simpl. by rewrite <- app_assoc.
Qed.

(** A drain moves the whole buffer to the output and leaves it empty. *)
Lemma drain_spec (h : Heap (Chunk:=Chunk)) :
  drain h = (mkHeap (yielded h ++ emitted_events h) [] (research_state h), inr tt).
Proof. unfold drain, gbind. rewrite yield_each_spec. reflexivity. Qed.

(** The method calls of a workflow step append exactly the encoded
    snapshots to the tail of the sink, in call order, and yield nothing. *)
Lemma perform_spec (log : list (unit * StateOp)) :
  forall (ys es : list Chunk) (st : ResearchState),
    perform encode log (mkHeap ys es (Some st)) =
    (mkHeap ys (es ++ map encode (snapshots log st)) (Some (final_state log st)),
     inr tt).
Proof.
  induction log as [|[[] op] log IH]; intros ys es st; simpl.
  - unfold gret. by rewrite app_nil_r.
  - destruct op; unfold gbind, method; simpl.
    + apply IH.
    + rewrite IH. by rewrite <- app_assoc.
Qed.

(** Everything the sink collects is a snapshot. *)
Lemma snapshots_are_snapshots (log : list (unit * StateOp)) :
  forall st, forallb is_snapshot (snapshots log st) = true.
Proof.
  induction log as [|[[] [flag|]] log IH]; intros st; simpl; auto.
Qed.

(** A step that never calls [emit_snapshot] appends nothing. *)
Lemma snapshots_silent (log : list (unit * StateOp)) :
  Forall (fun c => snd c <> emit_snapshot) log ->
  forall st, snapshots log st = [].
Proof.
  induction 1 as [|[[] [flag|]] log Hc _ IH]; intros st; simpl; auto.
  by destruct Hc.
Qed.

(** Hence the sink never holds an event of another kind. *)
Lemma filter_snapshots (p : ProtocolEvent -> bool) (evs : list ProtocolEvent) :
  (forall e, is_snapshot e = true -> p e = false) ->
  forallb is_snapshot evs = true ->
  List.filter p evs = [].
Proof.
  intros Hp. induction evs as [|e evs IH]; simpl; [done|].
  intros [He Hevs]%andb_true_iff. rewrite (Hp e He). auto.
Qed.

(** The identity and the query of the state object never change. *)
Lemma final_state_identity (log : list (unit * StateOp)) :
  forall st,
    message_id (final_state log st) = message_id st
    /\ query (final_state log st) = query st.
Proof.
  induction log as [|[[] [flag|]] log IH]; intros st; simpl; auto.
  destruct (IH (mkResearchState (message_id st) (query st) flag)); auto.
Qed.

Context {SearchResults : Type}.
Variable web_search : string -> option unit -> Wf unit SearchResults.
Variable create_detailed_report : SearchResults -> option unit -> Wf unit string.

Local Abbreviation generator := (event_generator encode web_search create_detailed_report).
Local Abbreviation graph := (build_research_graph web_search create_detailed_report tt).

(** The generator on an empty message list. *)
Lemma event_generator_no_message (input_data : RunAgentInput) (uuid4 : string) :
  messages input_data = [] ->
  generator input_data uuid4 empty_heap = (empty_heap, inl IndexError).
Proof.
  intros Hm. unfold event_generator, gbind, index_last. rewrite Hm. reflexivity.
Qed.

(** The generator on a non-empty message list, by the outcome of the
    workflow call: the final heap and how the generator ends. *)
Lemma event_generator_run (input_data : RunAgentInput) (uuid4 : string)
  (m : Message) (log : list (unit * StateOp)) (r : exn + list BaseMessage) :
  last (messages input_data) = Some m ->
  graph [HumanMessage (content m)] = (log, r) ->
  let st0 := mkResearchState uuid4 (content m) false in
  let started := [RunStartedEvent (thread_id input_data) (run_id input_data);
                  StateSnapshotEvent st0] in
  generator input_data uuid4 empty_heap =
  match r with
  | inl e =>
      (mkHeap (map encode started) (map encode (snapshots log st0))
              (Some (final_state log st0)), inl e)
  | inr [] =>
      (mkHeap (map encode (started ++ snapshots log st0)) []
              (Some (final_state log st0)), inl IndexError)
  | inr (report_item :: _) =>
      match content report_item with
      | "" =>
          (mkHeap (map encode (started ++ snapshots log st0
                               ++ [TextMessageStartEvent uuid4 "assistant"]))
                  [] (Some (final_state log st0)), inl ValidationError)
      | _ =>
          (mkHeap (map encode (run_events input_data uuid4
                                 (StateSnapshotEvent st0 :: snapshots log st0)
                                 (content report_item)))
                  [] (Some (final_state log st0)), inr tt)
      end
  end.
Proof.
  intros Hlast Hgraph st0 started.
  unfold event_generator, gbind, index_last. rewrite Hlast. simpl.
  unfold invoke, run_workflow, gbind. rewrite Hgraph. simpl.
  rewrite perform_spec. simpl.
  destruct r as [e|[|report_item rest]]; simpl.
  - reflexivity.
  - rewrite drain_spec. reflexivity.
  - rewrite drain_spec. unfold yield, text_message_content_event. simpl.
    destruct (content report_item) as [|a text] eqn:Htext; simpl.
    + rewrite ?map_app. reflexivity.
    + unfold run_events. simpl.
      rewrite !map_app. simpl. rewrite <- !app_assoc. reflexivity.
Qed.

(** The two ways on after the workflow call has returned: a report with
    text is sent and the run finished, an empty one is rejected when its
    content event is built, after the text message has been started. *)
Lemma event_generator_returned (input_data : RunAgentInput) (uuid4 : string)
  (m : Message) (log : list (unit * StateOp)) (report_item : BaseMessage)
  (rest : list BaseMessage) :
  last (messages input_data) = Some m ->
  graph [HumanMessage (content m)] = (log, inr (report_item :: rest)) ->
  content report_item <> "" ->
  let st0 := mkResearchState uuid4 (content m) false in
  generator input_data uuid4 empty_heap
  = (mkHeap (map encode (run_events input_data uuid4
                           (StateSnapshotEvent st0 :: snapshots log st0)
                           (content report_item)))
            [] (Some (final_state log st0)), inr tt).
Proof.
  intros Hlast Hgraph Htext st0.
  rewrite (event_generator_run input_data uuid4 m log _ Hlast Hgraph). cbv zeta.
  by destruct (content report_item).
Qed.

Lemma event_generator_rejected (input_data : RunAgentInput) (uuid4 : string)
  (m : Message) (log : list (unit * StateOp)) (report_item : BaseMessage)
  (rest : list BaseMessage) :
  last (messages input_data) = Some m ->
  graph [HumanMessage (content m)] = (log, inr (report_item :: rest)) ->
  content report_item = "" ->
  let st0 := mkResearchState uuid4 (content m) false in
  generator input_data uuid4 empty_heap
  = (mkHeap (map encode ([RunStartedEvent (thread_id input_data) (run_id input_data);
                          StateSnapshotEvent st0]
                         ++ snapshots log st0
                         ++ [TextMessageStartEvent uuid4 "assistant"]))
            [] (Some (final_state log st0)), inl ValidationError).
Proof.
  intros Hlast Hgraph Htext st0.
  rewrite (event_generator_run input_data uuid4 m log _ Hlast Hgraph). cbv zeta.
  by rewrite Htext.
Qed.

End RunFacts.

(** ** The shape of a completed stream *)

Section StreamShape.
Variable input_data : RunAgentInput.
Variable mid text : string.
Variable buffered : list ProtocolEvent.
Hypothesis buffered_snapshots : forallb is_snapshot buffered = true.

Local Abbreviation evs := (run_events input_data mid buffered text).

Lemma run_events_filter (p : ProtocolEvent -> bool) :
  (forall e, is_snapshot e = true -> p e = false) ->
  List.filter p evs =
  List.filter p [RunStartedEvent (thread_id input_data) (run_id input_data)]
  ++ List.filter p [TextMessageStartEvent mid "assistant";
                    TextMessageContentEvent mid text;
                    TextMessageEndEvent mid;
                    RunFinishedEvent (thread_id input_data) (run_id input_data)].
Proof.
  intros Hp. unfold run_events. rewrite !List.filter_app.
  rewrite (filter_snapshots p buffered Hp buffered_snapshots). reflexivity.
Qed.

Lemma run_events_head :
  head evs = Some (RunStartedEvent (thread_id input_data) (run_id input_data)).
Proof. reflexivity. Qed.

Lemma run_events_last :
  last evs = Some (RunFinishedEvent (thread_id input_data) (run_id input_data)).
Proof.
  unfold run_events.
  change [TextMessageStartEvent mid "assistant"; TextMessageContentEvent mid text;
          TextMessageEndEvent mid;
          RunFinishedEvent (thread_id input_data) (run_id input_data)]
    with ([TextMessageStartEvent mid "assistant"; TextMessageContentEvent mid text;
           TextMessageEndEvent mid]
          ++ [RunFinishedEvent (thread_id input_data) (run_id input_data)]).
  rewrite !app_assoc. apply last_snoc.
Qed.

(** Where each event of a completed stream sits. *)
Lemma run_events_lookup (n : nat) (e : ProtocolEvent) :
  evs !! n = Some e ->
  (n = 0 /\ e = RunStartedEvent (thread_id input_data) (run_id input_data))
  \/ (1 <= n <= List.length buffered /\ is_snapshot e = true)
  \/ (n = 1 + List.length buffered /\ e = TextMessageStartEvent mid "assistant")
  \/ (n = 2 + List.length buffered /\ e = TextMessageContentEvent mid text)
  \/ (n = 3 + List.length buffered /\ e = TextMessageEndEvent mid)
  \/ (n = 4 + List.length buffered
      /\ e = RunFinishedEvent (thread_id input_data) (run_id input_data)).
Proof.
  unfold run_events. simpl. destruct n as [|n]; simpl.
  { intros [= <-]. by left. }
  intros [Hin | [Hlen Htail]]%lookup_app_Some.
  - right; left. split.
    + apply lookup_lt_Some in Hin. lia.
    + rewrite forallb_forall in buffered_snapshots.
      apply buffered_snapshots, list_elem_of_In, (list_elem_of_lookup_2 _ n), Hin.
  - remember (n - List.length buffered) as k eqn:Hk.
    destruct k as [|[|[|[|k]]]]; simpl in Htail; try discriminate;
      injection Htail as <-; right; right.
    + left. split; [lia | done].
    + right; left. split; [lia | done].
    + right; right; left. split; [lia | done].
    + right; right; right. split; [lia | done].
Qed.

End StreamShape.

(** Counting or filtering the events of one kind in a completed stream:
    the buffered snapshots drop out, the rest is computed. *)
Ltac count_events Hsnap :=
  unfold count_kind;
  rewrite run_events_filter; [reflexivity | exact Hsnap | by intros []].

(** ** The run, from request to stream *)

Section Runs.
Import Workflow Orchestrator.
Context {Chunk : Type}.
Variable encode : ProtocolEvent -> Chunk.
Context {SearchResults : Type}.
Variable web_search : string -> option unit -> Wf unit SearchResults.
Variable create_detailed_report : SearchResults -> option unit -> Wf unit string.

Local Abbreviation generator :=
  (event_generator encode web_search create_detailed_report).
Local Abbreviation graph :=
  (build_research_graph web_search create_detailed_report tt).

(** C1, amended.  When the workflow call returns a report that is not
    empty, the stream is exactly: the run start, then the events buffered
    in the sink in the order appended (the initial snapshot, then the
    snapshots of the workflow, and nothing but snapshots), then the start,
    the one content and the end of the text message, then the run end; the
    generator completes; the run start is first, the run end is last, and
    each occurs once. *)
Theorem event_order_of_normal_run (input_data : RunAgentInput) (uuid4 : string)
  (m : Message) (log : list (unit * StateOp)) (result : list BaseMessage) :
  last (messages input_data) = Some m ->
  graph [HumanMessage (content m)] = (log, inr result) ->
  (forall item, result !! 0 = Some item -> content item <> "") ->
  let st0 := mkResearchState uuid4 (content m) false in
  let buffered := StateSnapshotEvent st0 :: snapshots log st0 in
  exists report_item,
    result !! 0 = Some report_item
    /\ let evs :=
         [RunStartedEvent (thread_id input_data) (run_id input_data)]
         ++ buffered
         ++ [TextMessageStartEvent uuid4 "assistant";
             TextMessageContentEvent uuid4 (content report_item);
             TextMessageEndEvent uuid4;
             RunFinishedEvent (thread_id input_data) (run_id input_data)] in
       stream (generator input_data uuid4) = (map encode evs, inr tt)
       /\ emitted_events
            (fst (gbind (new_research_state uuid4 (content m))
                    (fun _ => gbind (method encode emit_snapshot)
                                (fun _ => perform encode log)) empty_heap))
          = map encode buffered
       /\ forallb is_snapshot buffered = true
       /\ head evs = Some (RunStartedEvent (thread_id input_data) (run_id input_data))
       /\ last evs = Some (RunFinishedEvent (thread_id input_data) (run_id input_data))
       /\ count_kind is_run_started evs = 1
       /\ count_kind is_run_finished evs = 1.
Proof.
  intros Hlast Hgraph Htext st0 buffered.
  assert (exists report, result = [AIMessage report]) as [report ->].
  { unfold build_research_graph in Hgraph.
    eapply research_node_returns_singleton, Hgraph. }
  specialize (Htext (AIMessage report) eq_refl).
  exists (AIMessage report). split; [reflexivity|]. intros evs.
  assert (Hsnap : forallb is_snapshot buffered = true)
    by (simpl; apply snapshots_are_snapshots).
  change evs with (run_events input_data uuid4 buffered (content (AIMessage report))).
  repeat split.
  - unfold stream.
    by rewrite (event_generator_returned encode _ _ _ _ m log _ _ Hlast Hgraph Htext).
  - unfold gbind, new_research_state, method. simpl.
    rewrite perform_spec. reflexivity.
  - exact Hsnap.
  - apply run_events_last.
  - count_events Hsnap.
  - count_events Hsnap.
Qed.

(** C5.  A run that completes normally sends exactly one content event,
    and its delta is the full final text: the content of the first element
    of the list that the workflow call returned. *)
Theorem single_content_event_carries_report (input_data : RunAgentInput)
  (uuid4 : string) :
  snd (stream (generator input_data uuid4)) = inr tt ->
  exists m log result report_item,
    last (messages input_data) = Some m
    /\ graph [HumanMessage (content m)] = (log, inr result)
    /\ result !! 0 = Some report_item
    /\ let st0 := mkResearchState uuid4 (content m) false in
       let evs := run_events input_data uuid4
                    (StateSnapshotEvent st0 :: snapshots log st0)
                    (content report_item) in
       stream (generator input_data uuid4) = (map encode evs, inr tt)
       /\ List.filter is_text_content evs
          = [TextMessageContentEvent uuid4 (content report_item)]
       /\ count_kind is_text_content evs = 1.
Proof.
  unfold stream. intros Hdone.
  destruct (last (messages input_data)) as [m|] eqn:Hlast.
  - destruct (graph [HumanMessage (content m)]) as [log r] eqn:Hgraph.
    rewrite (event_generator_run encode _ _ _ uuid4 m log r Hlast Hgraph) in Hdone.
    cbv zeta in Hdone.
    destruct r as [e|[|report_item rest]]; try discriminate.
    assert (Htext : content report_item <> "")
      by (intros Htext; rewrite Htext in Hdone; discriminate).
    exists m, log, (report_item :: rest), report_item.
    split; [reflexivity|]. split; [exact Hgraph|]. split; [reflexivity|].
    set (st0 := mkResearchState uuid4 (content m) false).
    assert (Hsnap : forallb is_snapshot (StateSnapshotEvent st0 :: snapshots log st0)
                    = true) by (simpl; apply snapshots_are_snapshots).
    repeat split.
    + by rewrite (event_generator_returned encode _ _ _ _ m log _ _
                    Hlast Hgraph Htext).
    + rewrite run_events_filter; [reflexivity | exact Hsnap | by intros []].
    + count_events Hsnap.
  - apply last_None in Hlast.
    rewrite (event_generator_no_message encode _ _ _ uuid4 Hlast) in Hdone.
    discriminate.
Qed.

(** C4, amended.  When the workflow call returns a report that is not
    empty, the stream holds one text-message start and one text-message
    end, every content event lies strictly between the two, and every
    text-message event carries the identifier drawn once for the run. *)
Theorem text_message_bracket (input_data : RunAgentInput) (uuid4 : string)
  (m : Message) (log : list (unit * StateOp)) (result : list BaseMessage) :
  last (messages input_data) = Some m ->
  graph [HumanMessage (content m)] = (log, inr result) ->
  (forall item, result !! 0 = Some item -> content item <> "") ->
  let st0 := mkResearchState uuid4 (content m) false in
  exists report_item,
    result !! 0 = Some report_item
    /\ let evs := run_events input_data uuid4
                    (StateSnapshotEvent st0 :: snapshots log st0)
                    (content report_item) in
       stream (generator input_data uuid4) = (map encode evs, inr tt)
       /\ count_kind is_text_start evs = 1
       /\ count_kind is_text_end evs = 1
       /\ (exists i k,
              evs !! i = Some (TextMessageStartEvent uuid4 "assistant")
              /\ evs !! k = Some (TextMessageEndEvent uuid4)
              /\ (forall j e, evs !! j = Some e -> is_text_start e = true -> j = i)
              /\ (forall j e, evs !! j = Some e -> is_text_end e = true -> j = k)
              /\ (forall j e, evs !! j = Some e -> is_text_content e = true ->
                              i < j < k))
       /\ (forall j e mid, evs !! j = Some e -> text_message_id e = Some mid ->
                           mid = uuid4).
Proof.
  intros Hlast Hgraph Htext st0.
  assert (exists report, result = [AIMessage report]) as [report ->].
  { unfold build_research_graph in Hgraph.
    eapply research_node_returns_singleton, Hgraph. }
  specialize (Htext (AIMessage report) eq_refl).
  exists (AIMessage report). split; [reflexivity|]. intros evs.
  set (buffered := StateSnapshotEvent st0 :: snapshots log st0) in *.
  assert (Hsnap : forallb is_snapshot buffered = true)
    by (simpl; apply snapshots_are_snapshots).
  pose proof (run_events_lookup input_data uuid4 (content (AIMessage report))
                buffered Hsnap) as Hpos.
  split; [|split; [|split; [|split]]].
  - unfold stream.
    by rewrite (event_generator_returned encode _ _ _ _ m log _ _ Hlast Hgraph Htext).
  - unfold evs. count_events Hsnap.
  - unfold evs. count_events Hsnap.
  - exists (1 + List.length buffered), (3 + List.length buffered).
    split; [|split; [|split; [|split]]].
    + unfold evs, run_events. simpl. rewrite lookup_app_r by lia.
      by replace (_ - _) with 0 by lia.
    + unfold evs, run_events. simpl. rewrite lookup_app_r by lia.
      by replace (_ - _) with 2 by lia.
    + intros j e Hj He. destruct (Hpos j e Hj)
        as [[_ ->]|[[_ Hs]|[[-> _]|[[_ ->]|[[_ ->]|[_ ->]]]]]];
        try discriminate; [by destruct e | done].
    + intros j e Hj He. destruct (Hpos j e Hj)
        as [[_ ->]|[[_ Hs]|[[_ ->]|[[_ ->]|[[-> _]|[_ ->]]]]]];
        try discriminate; [by destruct e | done].
    + intros j e Hj He. destruct (Hpos j e Hj)
        as [[_ ->]|[[_ Hs]|[[_ ->]|[[-> _]|[[_ ->]|[_ ->]]]]]];
        try discriminate; [by destruct e | lia].
  - intros j e mid Hj He. destruct (Hpos j e Hj)
      as [[_ ->]|[[_ Hs]|[[_ ->]|[[_ ->]|[[_ ->]|[_ ->]]]]]];
      try discriminate; try (by destruct e); by injection He.
Qed.

(** C3, amended.  When the workflow call raises, the exception leaves the
    generator: the stream is the run start and the initial snapshot, it
    ends there with that exception and holds no run end, and what the
    workflow had buffered before failing stays in the sink. *)
Theorem workflow_error_ends_stream (input_data : RunAgentInput) (uuid4 : string)
  (m : Message) (log : list (unit * StateOp)) (e : exn) :
  last (messages input_data) = Some m ->
  graph [HumanMessage (content m)] = (log, inl e) ->
  let st0 := mkResearchState uuid4 (content m) false in
  let evs := [RunStartedEvent (thread_id input_data) (run_id input_data);
              StateSnapshotEvent st0] in
  stream (generator input_data uuid4) = (map encode evs, inl e)
  /\ count_kind is_run_finished evs = 0
  /\ emitted_events (fst (generator input_data uuid4 empty_heap))
     = map encode (snapshots log st0).
Proof.
  intros Hlast Hgraph st0 evs. unfold stream.
  rewrite (event_generator_run encode _ _ _ _ m log _ Hlast Hgraph).
  by repeat split.
Qed.

(** C2, amended.  For the one-message request about climate change and a
    workflow that returns the climate text without emitting any event, the
    stream is exactly: run start, the initial snapshot of the state, text
    start with role assistant, the content carrying the text, text end,
    run end. *)
Theorem climate_run_events (thread run uuid4 : string)
  (log : list (unit * StateOp)) :
  graph [HumanMessage "climate change impacts"]
    = (log, inr [AIMessage "Climate change causes rising sea levels..."]) ->
  Forall (fun c => snd c <> emit_snapshot) log ->
  stream (generator
            (mkRunAgentInput thread run
               [mkMessage "user" "climate change impacts"]) uuid4)
  = (map encode
       [RunStartedEvent thread run;
        StateSnapshotEvent (mkResearchState uuid4 "climate change impacts" false);
        TextMessageStartEvent uuid4 "assistant";
        TextMessageContentEvent uuid4 "Climate change causes rising sea levels...";
        TextMessageEndEvent uuid4;
        RunFinishedEvent thread run], inr tt).
Proof.
  intros Hgraph Hquiet. unfold stream.
  rewrite (event_generator_run encode _ _
             (mkRunAgentInput thread run [mkMessage "user" "climate change impacts"])
             uuid4 (mkMessage "user" "climate change impacts") log _ eq_refl Hgraph).
  unfold run_events. by rewrite (snapshots_silent log Hquiet).
Qed.

(** C6.  For a non-empty message list the query of the run is the content
    of the last message.  The state object carries it, as does its first
    snapshot on the stream; and it is what the workflow is given to search
    for: a search that raises the query it receives ends the stream with
    that content, and a search that hands the query on to a report writer
    that puts a title before it makes that content the text sent. *)
Theorem query_is_last_message_content (input_data : RunAgentInput)
  (uuid4 : string) (m : Message) :
  last (messages input_data) = Some m ->
  let st0 := mkResearchState uuid4 (content m) false in
  (exists st,
      research_state (fst (generator input_data uuid4 empty_heap)) = Some st
      /\ query st = content m)
  /\ fst (stream (generator input_data uuid4)) !! 1
     = Some (encode (StateSnapshotEvent st0))
  /\ stream (event_generator encode Sample.probe_search create_detailed_report
               input_data uuid4)
     = (map encode [RunStartedEvent (thread_id input_data) (run_id input_data);
                    StateSnapshotEvent st0],
        inl (WorkflowError (content m)))
  /\ stream (event_generator encode Sample.echo_search Sample.titled_report
               input_data uuid4)
     = (map encode
          (run_events input_data uuid4 [StateSnapshotEvent st0]
             (String.append "Report on: " (content m))), inr tt).
Proof.
  intros Hlast st0.
  destruct (graph [HumanMessage (content m)]) as [log r] eqn:Hgraph.
  pose proof (event_generator_run encode web_search create_detailed_report
                input_data uuid4 m log r Hlast Hgraph) as Hrun.
  cbv zeta in Hrun. split; [|split; [|split]].
  - exists (final_state log st0).
    split; [|apply final_state_identity].
    rewrite Hrun.
    by destruct r as [e|[|item rest]]; [| |destruct (content item)].
  - unfold stream. rewrite Hrun.
    by destruct r as [e|[|item rest]]; [| |destruct (content item)].
  - unfold stream.
    by rewrite (event_generator_run encode Sample.probe_search create_detailed_report
                  input_data uuid4 m [(tt, set_in_progress true)]
                  (inl (WorkflowError (content m))) Hlast eq_refl).
  - unfold stream.
    by rewrite (event_generator_returned encode Sample.echo_search
                  Sample.titled_report input_data uuid4 m
                  [(tt, set_in_progress true)]
                  (AIMessage (String.append "Report on: " (content m))) []
                  Hlast eq_refl).
Qed.

(** C9.  On an empty message list the generator fails on the subscript of
    the last message before its first yield: the stream is empty. *)
Theorem empty_messages_yield_nothing (thread run uuid4 : string) :
  stream (generator (mkRunAgentInput thread run []) uuid4) = ([], inl IndexError).
Proof.
  unfold stream. by rewrite event_generator_no_message.
Qed.

End Runs.

(** ** Draining the sink *)

Section Sink.
Import Orchestrator.
Context {Chunk : Type}.

(** C7.  After a drain, append [a], [b], [c] through the emitter: the next
    drain hands over exactly [a; b; c] in that order and leaves the buffer
    empty, and one more drain with nothing appended hands over nothing. *)
Theorem drain_is_exhaustive_ordered_clearing (h : Heap) (a b c : Chunk) :
  let h0 := fst (drain h) in
  let h1 := fst (gbind (event_emitter a)
                   (fun _ => gbind (event_emitter b)
                               (fun _ => event_emitter c)) h0) in
  let h2 := fst (drain h1) in
  let h3 := fst (drain h2) in
  emitted_events h1 = [a; b; c]
  /\ yielded h2 = yielded h0 ++ [a; b; c]
  /\ emitted_events h2 = []
  /\ yielded h3 = yielded h2
  /\ emitted_events h3 = []
  /\ snd (drain h1) = inr tt
  /\ snd (drain h2) = inr tt.
Proof.
  intros h0 h1 h2 h3. unfold h3, h2, h1, h0.
  rewrite !drain_spec. simpl. rewrite app_nil_r. by repeat split.
Qed.

End Sink.

(** ** The node without a state object *)

Section NodeAlone.
Import Workflow.
Context {H SearchResults : Type}.
Variable web_search : string -> option H -> Wf H SearchResults.
Variable create_detailed_report : SearchResults -> option H -> Wf H string.

(** C10.  On a non-empty message list and with no state object, the node
    makes no call on any state, neither itself nor through its helpers
    (which are handed no state either and return), and returns a list of
    one element, the AI message whose content is the report. *)
Theorem research_node_without_state (messages : list BaseMessage)
  (m : BaseMessage) (results : SearchResults) (report : string) :
  last messages = Some m ->
  web_search (content m) None = ([], inr results) ->
  create_detailed_report results None = ([], inr report) ->
  research_node web_search create_detailed_report messages None
  = ([], inr [AIMessage report]).
Proof.
  intros Hlast Hsearch Hreport.
  rewrite (research_node_unfold _ _ _ m None Hlast). cbv zeta.
  by rewrite Hsearch, Hreport.
Qed.

End NodeAlone.

(** ** Concrete runs *)

Section ConcreteRuns.
Import Workflow Orchestrator Sample.

(** C2, as stated, fails: for the climate request and a workflow that emits
    nothing, the stream is not the five-event sequence, it holds the
    initial snapshot as well. *)
Lemma climate_run_sends_initial_snapshot :
  let out := fst (stream (event_generator plain quiet_search
                            (fixed_report climate_text) climate_input "msg-1")) in
  snapshots (calls (build_research_graph quiet_search (fixed_report climate_text) tt
                      [HumanMessage "climate change impacts"]))
            (mkResearchState "msg-1" "climate change impacts" false) = []
  /\ out <> [RunStartedEvent "thread-1" "run-1";
             TextMessageStartEvent "msg-1" "assistant";
             TextMessageContentEvent "msg-1" climate_text;
             TextMessageEndEvent "msg-1";
             RunFinishedEvent "thread-1" "run-1"]
  /\ out !! 1 = Some (StateSnapshotEvent
                        (mkResearchState "msg-1" "climate change impacts" false))
  /\ count_kind is_snapshot out = 1.
Proof. vm_compute. repeat split; discriminate. Qed.

(** C3, as stated, fails: when the search of the workflow raises, the
    stream stops after the initial snapshot, with the exception and without
    a run end. *)
Lemma failing_run_has_no_run_finished :
  let run := stream (event_generator plain failing_search
                       (fixed_report climate_text) climate_input "msg-1") in
  outcome (build_research_graph failing_search (fixed_report climate_text) tt
             [HumanMessage "climate change impacts"])
  = inl (WorkflowError "search backend unreachable")
  /\ snd run = inl (WorkflowError "search backend unreachable")
  /\ count_kind is_run_finished (fst run) = 0
  /\ last (fst run) <> Some (RunFinishedEvent "thread-1" "run-1").
Proof. vm_compute. repeat split; discriminate. Qed.

(** C4, as stated, fails, in two ways.  The run with the failing search
    holds no text-message start and no text-message end, although its
    message identifier has been drawn and is carried by the snapshot.  The
    run whose workflow returns a report without text holds the start of
    the text message and never its end. *)
Lemma unfinished_runs_break_text_bracket :
  let out := fst (stream (event_generator plain failing_search
                            (fixed_report climate_text) climate_input "msg-1")) in
  let cut := fst (stream (event_generator plain quiet_search
                            (fixed_report "") climate_input "msg-1")) in
  out = [RunStartedEvent "thread-1" "run-1";
         StateSnapshotEvent (mkResearchState "msg-1" "climate change impacts" false)]
  /\ count_kind is_text_start out <> 1
  /\ count_kind is_text_end out <> 1
  /\ cut = [RunStartedEvent "thread-1" "run-1";
            StateSnapshotEvent (mkResearchState "msg-1" "climate change impacts" false);
            TextMessageStartEvent "msg-1" "assistant"]
  /\ count_kind is_text_start cut = 1
  /\ count_kind is_text_end cut <> 1.
Proof. vm_compute. repeat split; discriminate. Qed.

End ConcreteRuns.

(** ** The theorems at concrete runs *)

Section Instances.
Import Workflow Orchestrator Sample.

Local Abbreviation solar := (mkMessage "user" "solar power costs").
Local Abbreviation solar_state := (mkResearchState "msg-1" "solar power costs").
Local Abbreviation noisy_log :=
  [(tt, set_in_progress true); (tt, emit_snapshot)].

(** C1 at a three-message request whose search reports progress once. *)
Lemma event_order_of_normal_run_witness :
  last (messages two_turn_input) = Some solar
  /\ stream (event_generator plain noisy_search (fixed_report climate_text)
               two_turn_input "msg-1")
     = ([RunStartedEvent "thread-2" "run-7";
         StateSnapshotEvent (solar_state false);
         StateSnapshotEvent (solar_state true);
         TextMessageStartEvent "msg-1" "assistant";
         TextMessageContentEvent "msg-1" climate_text;
         TextMessageEndEvent "msg-1";
         RunFinishedEvent "thread-2" "run-7"], inr tt).
Proof.
  split; [reflexivity|].
  assert (Htext : forall item : BaseMessage,
             [AIMessage climate_text] !! 0 = Some item -> content item <> "")
    by (intros item [= <-]; discriminate).
  destruct (event_order_of_normal_run plain noisy_search (fixed_report climate_text)
              two_turn_input "msg-1" solar noisy_log [AIMessage climate_text]
              eq_refl eq_refl Htext) as (item & Hitem & Hstream & _).
  injection Hitem as <-. exact Hstream.
Defined.

(** C5 at the same run, which completes. *)
Lemma single_content_event_carries_report_witness :
  snd (stream (event_generator plain noisy_search (fixed_report climate_text)
                 two_turn_input "msg-1")) = inr tt
  /\ exists report_item,
       [AIMessage climate_text] !! 0 = Some report_item
       /\ List.filter is_text_content
            (fst (stream (event_generator plain noisy_search
                            (fixed_report climate_text) two_turn_input "msg-1")))
          = [TextMessageContentEvent "msg-1" (content report_item)].
Proof.
  split; [reflexivity|].
  destruct (single_content_event_carries_report plain noisy_search
              (fixed_report climate_text) two_turn_input "msg-1" eq_refl)
    as (m & log & result & item & Hlast & Hgraph & Hitem & Hstream & Hfilter & _).
  injection Hlast as <-. injection Hgraph as <- <-.
  exists item. split; [exact Hitem|].
  rewrite Hstream. exact Hfilter.
Defined.

(** C4, amended, at the same run. *)
Lemma text_message_bracket_witness :
  last (messages two_turn_input) = Some solar
  /\ count_kind is_text_start
       (run_events two_turn_input "msg-1"
          [StateSnapshotEvent (solar_state false); StateSnapshotEvent (solar_state true)]
          climate_text) = 1.
Proof.
  split; [reflexivity|].
  assert (Htext : forall item : BaseMessage,
             [AIMessage climate_text] !! 0 = Some item -> content item <> "")
    by (intros item [= <-]; discriminate).
  destruct (text_message_bracket plain noisy_search (fixed_report climate_text)
              two_turn_input "msg-1" solar noisy_log [AIMessage climate_text]
              eq_refl eq_refl Htext) as (item & Hitem & _ & Hstart & _).
  injection Hitem as <-. exact Hstart.
Defined.

(** C3, amended, at the same request with a failing search. *)
Lemma workflow_error_ends_stream_witness :
  build_research_graph failing_search (fixed_report climate_text) tt
    [HumanMessage "solar power costs"]
  = ([(tt, set_in_progress true)], inl (WorkflowError "search backend unreachable"))
  /\ stream (event_generator plain failing_search (fixed_report climate_text)
               two_turn_input "msg-1")
     = ([RunStartedEvent "thread-2" "run-7"; StateSnapshotEvent (solar_state false)],
        inl (WorkflowError "search backend unreachable")).
Proof.
  split; [reflexivity|].
  exact (proj1 (workflow_error_ends_stream plain failing_search
                  (fixed_report climate_text) two_turn_input "msg-1" solar
                  [(tt, set_in_progress true)]
                  (WorkflowError "search backend unreachable") eq_refl eq_refl)).
Defined.

(** C2, amended, at the climate request with a silent workflow. *)
Lemma climate_run_events_witness :
  Forall (fun c : unit * StateOp => snd c <> emit_snapshot) [(tt, set_in_progress true)]
  /\ stream (event_generator plain quiet_search (fixed_report climate_text)
               climate_input "msg-1")
     = ([RunStartedEvent "thread-1" "run-1";
         StateSnapshotEvent (mkResearchState "msg-1" "climate change impacts" false);
         TextMessageStartEvent "msg-1" "assistant";
         TextMessageContentEvent "msg-1" climate_text;
         TextMessageEndEvent "msg-1";
         RunFinishedEvent "thread-1" "run-1"], inr tt).
Proof.
  assert (Hquiet : Forall (fun c : unit * StateOp => snd c <> emit_snapshot)
                     [(tt, set_in_progress true)])
    by (repeat constructor; discriminate).
  split; [exact Hquiet|].
  exact (climate_run_events plain quiet_search (fixed_report climate_text)
           "thread-1" "run-1" "msg-1" [(tt, set_in_progress true)] eq_refl Hquiet).
Defined.

(** C6 at the three-message request: the last content is the query. *)
Lemma query_is_last_message_content_witness :
  last (messages two_turn_input) = Some solar
  /\ stream (event_generator plain (probe_search (A:=list string))
               (fixed_report climate_text) two_turn_input "msg-1")
     = ([RunStartedEvent "thread-2" "run-7";
         StateSnapshotEvent (solar_state false)],
        inl (WorkflowError "solar power costs"))
  /\ stream (event_generator plain echo_search titled_report two_turn_input "msg-1")
     = ([RunStartedEvent "thread-2" "run-7";
         StateSnapshotEvent (solar_state false);
         TextMessageStartEvent "msg-1" "assistant";
         TextMessageContentEvent "msg-1" "Report on: solar power costs";
         TextMessageEndEvent "msg-1";
         RunFinishedEvent "thread-2" "run-7"], inr tt).
Proof.
  split; [reflexivity|].
  exact (proj2 (proj2 (query_is_last_message_content plain quiet_search
                         (fixed_report climate_text) two_turn_input "msg-1" solar
                         eq_refl))).
Defined.

(** C10 at a two-message list. *)
Lemma research_node_without_state_witness :
  last [HumanMessage "solar power"; HumanMessage "solar power costs"]
  = Some (HumanMessage "solar power costs")
  /\ research_node (H:=unit) noisy_search (fixed_report climate_text)
       [HumanMessage "solar power"; HumanMessage "solar power costs"] None
     = ([], inr [AIMessage climate_text]).
Proof.
  split; [reflexivity|].
  exact (research_node_without_state (H:=unit) noisy_search (fixed_report climate_text)
           [HumanMessage "solar power"; HumanMessage "solar power costs"]
           (HumanMessage "solar power costs") ["solar power costs"] climate_text
           eq_refl eq_refl eq_refl).
Defined.

End Instances.

(** * Further properties of the two modules *)

(** ** research.py: what the node reads, calls, returns and raises *)

Section NodeBehaviour.
Import Workflow.
Context {H SearchResults : Type}.
Variable web_search : string -> option H -> Wf H SearchResults.
Variable create_detailed_report : SearchResults -> option H -> Wf H string.

Local Abbreviation node := (research_node web_search create_detailed_report).

(** X1.  The node reads nothing of the conversation but the content of the
    last message: earlier messages, and the class of the last one, make no
    difference to its calls or to its outcome. *)
Theorem research_node_reads_last_content (history : list BaseMessage)
  (m : BaseMessage) (state : option H) :
  node (history ++ [m]) state = node [HumanMessage (content m)] state.
Proof.
  rewrite (research_node_unfold _ _ (history ++ [m]) m state (last_snoc _ _)).
  by rewrite (research_node_unfold _ _ [HumanMessage (content m)]
                (HumanMessage (content m)) state eq_refl).
Qed.

(** X2.  With a state object and a non-empty list, the first call of the
    node is [set_in_progress(True)], made before the search; the calls of
    the search follow, then those of the report writer, which is not run
    when the search raised.  The node itself makes no other call: it never
    clears the flag and never emits a snapshot. *)
Theorem research_node_call_order (messages : list BaseMessage) (m : BaseMessage)
  (s : H) :
  last messages = Some m ->
  calls (node messages (Some s))
  = (s, set_in_progress true)
      :: calls (web_search (content m) (Some s))
      ++ match outcome (web_search (content m) (Some s)) with
         | inl _ => []
         | inr results => calls (create_detailed_report results (Some s))
         end.
Proof.
  intros Hlast. rewrite (research_node_unfold _ _ messages m (Some s) Hlast).
  cbv zeta. unfold calls, outcome.
  destruct (web_search (content m) (Some s)) as [l1 [e|results]]; simpl.
  - by rewrite app_nil_r.
  - by destruct (create_detailed_report results (Some s)) as [l2 [e|report]].
Qed.

(** X3.  The node returns exactly when both helpers return, and then its
    result is the one-element list holding the AI message of the report
    written from the results of searching the last content. *)
Theorem research_node_returns_iff (messages : list BaseMessage)
  (state : option H) (result : list BaseMessage) :
  outcome (node messages state) = inr result
  <-> exists m results report,
        last messages = Some m
        /\ outcome (web_search (content m) state) = inr results
        /\ outcome (create_detailed_report results state) = inr report
        /\ result = [AIMessage report].
Proof.
  unfold outcome. split.
  - destruct (last messages) as [m|] eqn:Hlast.
    + rewrite (research_node_unfold _ _ messages m state Hlast). cbv zeta.
      destruct (web_search (content m) state) as [l1 [e|results]] eqn:Hs;
        [discriminate|].
      destruct (create_detailed_report results state) as [l2 [e|report]] eqn:Hr;
        [discriminate|].
      simpl. intros [= <-]. exists m, results, report.
      by rewrite Hs, Hr.
    + apply last_None in Hlast as ->. discriminate.
  - intros (m & results & report & Hlast & Hs & Hr & ->).
    rewrite (research_node_unfold _ _ messages m state Hlast). cbv zeta.
    destruct (web_search (content m) state) as [l1 [e|results']];
      simpl in Hs; [discriminate|]. injection Hs as ->.
    destruct (create_detailed_report results state) as [l2 [e|report']];
      simpl in Hr; [discriminate|]. by injection Hr as ->.
Qed.

(** X4.  The node handles no exception.  It raises [e] exactly when the
    message list is empty and [e] is the [IndexError] of the subscript, or
    the search raised [e], or the search returned and the report writer
    raised [e]; on the empty list it stops before any call on the state. *)
Theorem research_node_raises_iff (messages : list BaseMessage)
  (state : option H) (e : exn) :
  (outcome (node messages state) = inl e
   <-> (messages = [] /\ e = IndexError)
       \/ exists m,
            last messages = Some m
            /\ (outcome (web_search (content m) state) = inl e
                \/ exists results,
                     outcome (web_search (content m) state) = inr results
                     /\ outcome (create_detailed_report results state) = inl e))
  /\ (messages = [] -> calls (node messages state) = []).
Proof.
  split; [|by intros ->].
  unfold outcome. destruct (last messages) as [m|] eqn:Hlast.
  - rewrite (research_node_unfold _ _ messages m state Hlast). cbv zeta. split.
    + intros Hout. right. exists m. split; [done|].
      destruct (web_search (content m) state) as [l1 [e1|results]]; simpl in *.
      * left. congruence.
      * right. exists results. split; [done|].
        destruct (create_detailed_report results state) as [l2 [e2|report]];
          simpl in *; congruence.
    + intros [[-> _]|(m' & [= <-] & Hcase)]; [done|].
      destruct (web_search (content m) state) as [l1 [e1|results]]; simpl in *.
      * destruct Hcase as [He|(r & Hr1 & _)]; congruence.
      * destruct Hcase as [He|(r & Hr1 & Hr2)]; [congruence|].
        injection Hr1 as <-.
        destruct (create_detailed_report results state) as [l2 [e2|report]];
          simpl in *; congruence.
  - apply last_None in Hlast as ->. simpl. split.
    + intros [= <-]. by left.
    + intros [[_ ->]|(m & [=] & _)]. done.
Qed.

End NodeBehaviour.

(** ** main.py: what every run of the generator keeps *)

Section GeneratorBehaviour.
Import Workflow Orchestrator.
Context {Chunk : Type}.
Variable encode : ProtocolEvent -> Chunk.
Context {SearchResults : Type}.
Variable web_search : string -> option unit -> Wf unit SearchResults.
Variable create_detailed_report : SearchResults -> option unit -> Wf unit string.

Local Abbreviation generator :=
  (event_generator encode web_search create_detailed_report).
Local Abbreviation graph :=
  (build_research_graph web_search create_detailed_report tt).

(** Each [emit_snapshot] call appends one snapshot, no other call any. *)
Lemma snapshots_length (log : list (unit * StateOp)) :
  forall st, List.length (snapshots log st) = count_emits log.
Proof.
  unfold count_emits.
  induction log as [|[[] [flag|]] log IH]; intros st; simpl; auto.
Qed.

(** The workflow call never returns an empty list. *)
Lemma graph_result_nonempty (messages : list BaseMessage)
  (log : list (unit * StateOp)) :
  graph messages <> (log, inr []).
Proof.
  intros Hgraph. unfold build_research_graph in Hgraph.
  by destruct (research_node_returns_singleton _ _ _ _ _ _ Hgraph).
Qed.

(** X5.  How the generator ends, for every request: with [IndexError] when
    the message list is empty; with the very exception of the workflow call
    when that raises; with [ValidationError] when the workflow returned a
    report without text, which the content event rejects; and normally in
    every other case. *)
Theorem event_generator_outcome (input_data : RunAgentInput) (uuid4 : string) :
  snd (stream (generator input_data uuid4))
  = match last (messages input_data) with
    | None => inl IndexError
    | Some m =>
        match outcome (graph [HumanMessage (content m)]) with
        | inl e => inl e
        | inr [] => inl IndexError
        | inr (report_item :: _) =>
            match content report_item with
            | "" => inl ValidationError
            | _ => inr tt
            end
        end
    end.
Proof.
  unfold stream. destruct (last (messages input_data)) as [m|] eqn:Hlast.
  - destruct (graph [HumanMessage (content m)]) as [log r] eqn:Hgraph.
    rewrite (event_generator_run encode _ _ _ uuid4 m log r Hlast Hgraph).
    destruct r as [e|[|item rest]]; try reflexivity.
    simpl. by destruct (content item).
  - apply last_None in Hlast.
    by rewrite (event_generator_no_message encode _ _ _ uuid4 Hlast).
Qed.

(** X6.  Of the conversation the run uses the content of the last message
    and nothing else: two requests with the same thread and run identifiers
    whose last messages have the same content give the same run, whatever
    the earlier messages and whatever the roles. *)
Theorem run_depends_on_last_content (input1 input2 : RunAgentInput)
  (uuid4 : string) (m1 m2 : Message) :
  thread_id input1 = thread_id input2 ->
  run_id input1 = run_id input2 ->
  last (messages input1) = Some m1 ->
  last (messages input2) = Some m2 ->
  content m1 = content m2 ->
  generator input1 uuid4 empty_heap = generator input2 uuid4 empty_heap.
Proof.
  intros Hthread Hrun Hlast1 Hlast2 Hcontent.
  destruct (graph [HumanMessage (content m1)]) as [log r] eqn:Hgraph.
  rewrite (event_generator_run encode _ _ _ uuid4 m1 log r Hlast1 Hgraph).
  rewrite Hcontent in Hgraph.
  rewrite (event_generator_run encode _ _ _ uuid4 m2 log r Hlast2 Hgraph).
  cbv zeta. unfold run_events. by rewrite Hthread, Hrun, Hcontent.
Qed.

(** X7.  For a non-empty message list the stream opens with the run start
    and the initial snapshot of the fresh state, sent before the workflow
    is invoked and so whatever the workflow then does. *)
Theorem stream_opening (input_data : RunAgentInput) (uuid4 : string)
  (m : Message) :
  last (messages input_data) = Some m ->
  take 2 (fst (stream (generator input_data uuid4)))
  = [encode (RunStartedEvent (thread_id input_data) (run_id input_data));
     encode (StateSnapshotEvent (mkResearchState uuid4 (content m) false))].
Proof.
  intros Hlast. unfold stream.
  destruct (graph [HumanMessage (content m)]) as [log r] eqn:Hgraph.
  rewrite (event_generator_run encode _ _ _ uuid4 m log r Hlast Hgraph).
  by destruct r as [e|[|item rest]]; [| |destruct (content item)].
Qed.


(** X8.  When the workflow call returns, whether or not its report is then
    accepted, everything buffered in the sink has been sent, once and in
    the order appended, between the run start and the start of the text
    message: the initial snapshot and one snapshot for each
    [emit_snapshot] call of the workflow.  The sink is empty when the
    generator ends.  After the start of the text message come the content,
    the end and the run end when the report has text, and nothing when it
    has none. *)
Theorem returned_workflow_is_flushed (input_data : RunAgentInput)
  (uuid4 : string) (m : Message) (log : list (unit * StateOp))
  (result : list BaseMessage) :
  last (messages input_data) = Some m ->
  graph [HumanMessage (content m)] = (log, inr result) ->
  let st0 := mkResearchState uuid4 (content m) false in
  let buffered := StateSnapshotEvent st0 :: snapshots log st0 in
  exists report_item,
    result !! 0 = Some report_item
    /\ fst (stream (generator input_data uuid4))
       = map encode
           ([RunStartedEvent (thread_id input_data) (run_id input_data)]
            ++ buffered
            ++ [TextMessageStartEvent uuid4 "assistant"]
            ++ match content report_item with
               | "" => []
               | _ => [TextMessageContentEvent uuid4 (content report_item);
                       TextMessageEndEvent uuid4;
                       RunFinishedEvent (thread_id input_data) (run_id input_data)]
               end)
    /\ forallb is_snapshot buffered = true
    /\ List.length buffered = 1 + count_emits log
    /\ emitted_events (fst (generator input_data uuid4 empty_heap)) = [].
Proof.
  intros Hlast Hgraph st0 buffered.
  destruct result as [|item rest];
    [by destruct (graph_result_nonempty _ _ Hgraph)|].
  exists item. split; [reflexivity|]. unfold stream.
  rewrite (event_generator_run encode _ _ _ uuid4 m log _ Hlast Hgraph).
  cbv zeta. fold st0.
  assert (Hsnap : forallb is_snapshot buffered = true)
    by (simpl; apply snapshots_are_snapshots).
  assert (Hlen : List.length buffered = 1 + count_emits log)
    by (simpl; by rewrite snapshots_length).
  destruct (content item) as [|a text] eqn:Htext; simpl;
    repeat split; auto.
Qed.


End GeneratorBehaviour.

(** ** main.py: the sink under any number of appends *)

Section SinkBehaviour.
Import Orchestrator.
Context {Chunk : Type}.

(** Appending a list of chunks through the emitter extends the buffer by
    that list and touches nothing else. *)
Lemma emit_each_spec (chunks : list Chunk) :
  forall h : Heap,
    emit_each chunks h
    = (mkHeap (yielded h) (emitted_events h ++ chunks) (research_state h), inr tt).
Proof.
  induction chunks as [|c chunks IH]; intros h; simpl.
  - unfold gret. rewrite app_nil_r. by destruct h.
  - unfold gbind, event_emitter. rewrite IH. simpl. by rewrite <- app_assoc.
Qed.

(** X10.  Whatever the sink already holds and however many chunks are then
    appended, the next drain sends first what was held, then the appended
    chunks in the order appended, after everything sent before; it leaves
    the sink empty, does not fail and does not touch the state object. *)
Theorem drain_after_appends (h : Heap) (chunks : list Chunk) :
  gbind (emit_each chunks) (fun _ => drain) h
  = (mkHeap (yielded h ++ emitted_events h ++ chunks) [] (research_state h),
     inr tt).
Proof.
  unfold gbind. rewrite emit_each_spec, drain_spec. reflexivity.
Qed.

End SinkBehaviour.

(** ** The further properties at concrete runs *)

Section FurtherInstances.
Import Workflow Orchestrator Sample.

Local Abbreviation solar := (mkMessage "user" "solar power costs").

(** X2 at a two-message list with a search that reports progress. *)
Lemma research_node_call_order_witness :
  last [HumanMessage "solar power"; HumanMessage "solar power costs"]
  = Some (HumanMessage "solar power costs")
  /\ calls (research_node noisy_search (fixed_report climate_text)
              [HumanMessage "solar power"; HumanMessage "solar power costs"]
              (Some tt))
     = [(tt, set_in_progress true); (tt, emit_snapshot)].
Proof.
  split; [reflexivity|].
  exact (research_node_call_order noisy_search (fixed_report climate_text)
           [HumanMessage "solar power"; HumanMessage "solar power costs"]
           (HumanMessage "solar power costs") tt eq_refl).
Defined.

(** X6 at the three-message request and a one-message request that ends on
    the same content, sent by another role. *)
Lemma run_depends_on_last_content_witness :
  last (messages two_turn_input) = Some solar
  /\ event_generator plain noisy_search (fixed_report climate_text)
       two_turn_input "msg-1" empty_heap
     = event_generator plain noisy_search (fixed_report climate_text)
         (mkRunAgentInput "thread-2" "run-7"
            [mkMessage "assistant" "solar power costs"])
         "msg-1" empty_heap.
Proof.
  split; [reflexivity|].
  exact (run_depends_on_last_content plain noisy_search (fixed_report climate_text)
           two_turn_input
           (mkRunAgentInput "thread-2" "run-7"
              [mkMessage "assistant" "solar power costs"])
           "msg-1" solar (mkMessage "assistant" "solar power costs")
           eq_refl eq_refl eq_refl eq_refl eq_refl).
Defined.

(** X7 at the three-message request with a failing search. *)
Lemma stream_opening_witness :
  last (messages two_turn_input) = Some solar
  /\ take 2 (fst (stream (event_generator plain failing_search
                            (fixed_report climate_text) two_turn_input "msg-1")))
     = [RunStartedEvent "thread-2" "run-7";
        StateSnapshotEvent (mkResearchState "msg-1" "solar power costs" false)].
Proof.
  split; [reflexivity|].
  exact (stream_opening plain failing_search (fixed_report climate_text)
           two_turn_input "msg-1" solar eq_refl).
Defined.

(** X8 at the three-message request with a search that reports progress
    once and a report writer that returns no text: both snapshots are sent
    and the stream stops after the start of the text message. *)
Lemma returned_workflow_is_flushed_witness :
  build_research_graph noisy_search (fixed_report "") tt
    [HumanMessage "solar power costs"]
  = ([(tt, set_in_progress true); (tt, emit_snapshot)], inr [AIMessage ""])
  /\ fst (stream (event_generator plain noisy_search (fixed_report "")
                    two_turn_input "msg-1"))
     = [RunStartedEvent "thread-2" "run-7";
        StateSnapshotEvent (mkResearchState "msg-1" "solar power costs" false);
        StateSnapshotEvent (mkResearchState "msg-1" "solar power costs" true);
        TextMessageStartEvent "msg-1" "assistant"].
Proof.
  split; [reflexivity|].
  destruct (returned_workflow_is_flushed plain noisy_search (fixed_report "")
              two_turn_input "msg-1" solar
              [(tt, set_in_progress true); (tt, emit_snapshot)]
              [AIMessage ""] eq_refl eq_refl) as (item & Hitem & Hstream & _).
  injection Hitem as <-. exact Hstream.
Defined.

End FurtherInstances.

(** ** main.py: a producer beside the drain *)

Section BesideTheDrain.
Import Orchestrator Interleaving.
Context {Chunk : Type}.





(** Without a producer the steps of the drain add up to [drain]. *)
Lemma drain_steps_alone (h : Heap (Chunk:=Chunk)) :
  forall n i,
    i + n = List.length (emitted_events h) ->
    interleave (repeat drain_tick (n + 2)) (in_loop i)
      (mkHeap (yielded h ++ take i (emitted_events h)) (emitted_events h)
              (research_state h))
    = (drained, fst (drain h)).
Proof.
  induction n as [|n IH]; intros i Hi; simpl.
  - rewrite Nat.add_0_r in Hi. subst i.
    rewrite lookup_ge_None_2 by done. simpl.
    rewrite take_ge by done. by rewrite drain_spec.
  - destruct (emitted_events h !! i) as [event|] eqn:Hev.
    + simpl. rewrite <- app_assoc, <- (take_S_r _ _ _ Hev).
      apply IH. lia.
    + apply lookup_ge_None in Hev. lia.
Qed.

Lemma drain_ticks_are_drain (h : Heap (Chunk:=Chunk)) :
  interleave (repeat drain_tick (List.length (emitted_events h) + 2)) (in_loop 0) h
  = (drained, fst (drain h)).
Proof.
  rewrite <- (drain_steps_alone h (List.length (emitted_events h)) 0 eq_refl).
  destruct h as [ys es st]. simpl. by rewrite app_nil_r.
Qed.


End BesideTheDrain.

(** ** Concrete schedules and runs *)

Section FurtherConcreteRuns.
Import Workflow Orchestrator Interleaving Sample.


(** C1, as stated, fails: the workflow call returns, with a report that
    has no text; the stream stops after the start of the text message,
    with the error of the rejected content event and without a run end. *)
Lemma empty_report_run_is_cut_short :
  let run := stream (event_generator plain quiet_search (fixed_report "")
                       climate_input "msg-1") in
  build_research_graph quiet_search (fixed_report "") tt
    [HumanMessage "climate change impacts"]
  = ([(tt, set_in_progress true)], inr [AIMessage ""])
  /\ run = ([RunStartedEvent "thread-1" "run-1";
             StateSnapshotEvent
               (mkResearchState "msg-1" "climate change impacts" false);
             TextMessageStartEvent "msg-1" "assistant"],
            inl ValidationError)
  /\ last (fst run) <> Some (RunFinishedEvent "thread-1" "run-1")
  /\ count_kind is_run_finished (fst run) = 0
  /\ count_kind is_text_content (fst run) = 0.
Proof. vm_compute. repeat split; discriminate. Qed.

End FurtherConcreteRuns.

(** ** The amended sink property at a concrete schedule *)

Section ScheduleInstance.
Import Orchestrator Interleaving.


End ScheduleInstance.
